(** * ZegoTextureRenderer: the video-frame bridge of the Cocos Creator plugin

    A shallow embedding of [native/src/internal/zego_texture_renderer.cc]:
    the renderer object (one per video stream), its accessors,
    [SetJsController] and [UpdateFrameBuffer], together with the part of the
    script engine ([se::Value], [se::Object], [se::ScriptEngine]) that
    [UpdateFrameBuffer] talks to.  Every function of the source is a function
    here; the script engine singleton and the sequence counter, which are
    process-wide in the C++ code, are passed explicitly. *)

From Stdlib Require Import ZArith List Lia Sorted.
From stdpp Require Import base gmap strings list.

Open Scope Z_scope.

(** ** Machine integers *)

(** [uint32_t]: the value stored by an assignment to a 32-bit unsigned
    field. *)
Definition to_uint32 (z : Z) : Z := z mod 2 ^ 32.

(** [int64_t] with two's complement wrap-around. *)
Definition INT64_MIN : Z := - 2 ^ 63.
Definition INT64_MAX : Z := 2 ^ 63 - 1.
Definition to_int64 (z : Z) : Z := (z + 2 ^ 63) mod 2 ^ 64 - 2 ^ 63.

(** Threads are told apart by a number; [uint8_t *] is an address. *)
Abbreviation ThreadId := nat.
Abbreviation Ptr := Z.

(** ** The script engine, as far as the bridge uses it *)

Module se.

Abbreviation ObjectRef := positive.

(** Modelled from the spec: [se::Value] belongs to the engine's script
    bindings, an external collaborator whose headers are not part of the
    sources.  The tags are those the bridge asks about ([isObject]) and their
    siblings; an object value holds a reference into the engine's heap. *)
Inductive Value : Type :=
| Undefined
| Null
| Number (n : Z)
| Boolean (b : bool)
| String (s : string)
| Object (o : ObjectRef)
| BigInt (n : Z).

(** Modelled from the spec: a script object is a bag of named properties;
    functions are objects that can be called. *)
Record JsObject : Type := mkJsObject {
  properties : gmap string Value;
  callable : bool
}.

(** Modelled from the spec: the [se::ScriptEngine] singleton.  [owner] is the
    one logical thread the runtime executes on. *)
Record ScriptEngine : Type := mkScriptEngine {
  heap : gmap ObjectRef JsObject;
  pending_exception : bool;
  owner : ThreadId
}.

(** What the bridge asks of the engine, one constructor per entry point. *)
Inductive Event : Type :=
| ClearException
| GetProperty (obj : ObjectRef) (name : string)
| Call (func : ObjectRef) (args : list Value) (thisObject : ObjectRef).

(** [Value::isObject]. *)
Definition isObject (v : Value) : bool :=
  match v with Object _ => true | _ => false end.

(** [Value::toObject]: asserts [isObject]; [None] is the failed assertion. *)
Definition toObject (v : Value) : option ObjectRef :=
  match v with Object o => Some o | _ => None end.

(** [ScriptEngine::clearException]. *)
Definition clearException (e : ScriptEngine) : ScriptEngine :=
  mkScriptEngine (heap e) false (owner e).

(** [Object::getProperty(name, &out)]: [Some v] when it returns true and
    stores [v], [None] when it returns false. *)
Definition getProperty (e : ScriptEngine) (o : ObjectRef) (name : string)
  : option Value :=
  heap e !! o ≫= λ obj, properties obj !! name.

(** [Object::isFunction]. *)
Definition isFunction (e : ScriptEngine) (o : ObjectRef) : bool :=
  match heap e !! o with
  | Some obj => callable obj
  | None => false
  end.

Definition is_call (ev : Event) : bool :=
  match ev with Call _ _ _ => true | _ => false end.

End se.

(** Modelled from the spec: the flip mode enumeration of the Express SDK
    (none, horizontal, vertical, both). *)
Inductive ZegoVideoFlipMode : Type :=
| FlipNone
| FlipHorizontal
| FlipVertical
| FlipBoth.

(** What the bridge takes from its surroundings without looking inside: the
    two [nativevalue_to_se] conversions it uses (of the [int64_t] id and of
    the [uint8_t *] buffer; the latter is handed the address alone, as in
    the source), the effect of running a script function ([Object::call],
    which reports success as a [bool]), and the member initialisers of the
    class declaration.  A script function works on the engine's state; it is
    not given a way back into the renderer that is calling it. *)
Class Platform : Type := {
  nativevalue_to_se_int64 : Z → se.Value;
  nativevalue_to_se_ptr : Ptr → se.Value;
  call : se.ObjectRef → list se.Value → se.ObjectRef → se.ScriptEngine
         → bool * se.ScriptEngine;
  width_default : Z;
  height_default : Z;
  rotation_default : Z;
  flip_mode_default : ZegoVideoFlipMode
}.

(** ** Data model *)

(** Modelled from the spec: [ZEGO::EXPRESS::ZegoVideoFrameParam], of which
    the bridge reads three members. *)
Record ZegoVideoFrameParam : Type := mkParam {
  width : Z;
  height : Z;
  rotation : Z
}.

(** The renderer object.  [js_controller_] is a [std::shared_ptr<se::Value>]:
    [None] is the empty pointer. *)
Record ZegoTextureRenderer : Type := mkRenderer {
  texture_id_ : Z;
  js_controller_ : option se.Value;
  width_ : Z;
  height_ : Z;
  rotation_ : Z;
  flip_mode_ : ZegoVideoFlipMode
}.

Definition set_js_controller_ (c : option se.Value) (r : ZegoTextureRenderer) :=
  mkRenderer (texture_id_ r) c (width_ r) (height_ r) (rotation_ r) (flip_mode_ r).
Definition set_width_ (w : Z) (r : ZegoTextureRenderer) :=
  mkRenderer (texture_id_ r) (js_controller_ r) w (height_ r) (rotation_ r) (flip_mode_ r).
Definition set_height_ (h : Z) (r : ZegoTextureRenderer) :=
  mkRenderer (texture_id_ r) (js_controller_ r) (width_ r) h (rotation_ r) (flip_mode_ r).
Definition set_rotation_ (d : Z) (r : ZegoTextureRenderer) :=
  mkRenderer (texture_id_ r) (js_controller_ r) (width_ r) (height_ r) d (flip_mode_ r).
Definition set_flip_mode_ (f : ZegoVideoFlipMode) (r : ZegoTextureRenderer) :=
  mkRenderer (texture_id_ r) (js_controller_ r) (width_ r) (height_ r) (rotation_ r) f.

(** How a member function ends: it returns, or an assertion of the engine
    stops it. *)
Inductive Completion : Type :=
| Returned
| AssertionFailed.

(** A trace entry: which thread asked the engine for what. *)
Abbreviation Entry := (ThreadId * se.Event)%type.

(** The result of running a member function that may talk to the engine. *)
Record Outcome : Type := mkOutcome {
  completion : Completion;
  renderer : ZegoTextureRenderer;
  engine : se.ScriptEngine;
  trace : list Entry
}.

(** ** The sequence counter *)

(** Modelled from the spec: [GetNextSequence] is declared in [zego_utils.h],
    which is not among the sources.  The spec describes it as the next value
    of a process-wide atomic counter, strictly increasing, that never wraps in
    practice; the counter is a 64-bit signed integer like [texture_id_], so
    the wrap is written out.  The result is the new counter value paired with
    the counter's new state. *)
Definition GetNextSequence (sequence : Z) : Z * Z :=
  let next := to_int64 (sequence + 1) in (next, next).

(** The process-wide state: the counter behind [GetNextSequence] and the
    script engine singleton. *)
Record Process : Type := mkProcess {
  sequence : Z;
  script_engine : se.ScriptEngine
}.

Section Bridge.

Context `{Platform}.

(** ** Member functions *)

(** [ZegoTextureRenderer::ZegoTextureRenderer()] (line 13). *)
Definition ZegoTextureRenderer_new (p : Process)
  : ZegoTextureRenderer * Process :=
  let '(id, sequence') := GetNextSequence (sequence p) in
  (mkRenderer id None width_default height_default rotation_default
     flip_mode_default,
   mkProcess sequence' (script_engine p)).

(** [SetJsController] (lines 15-17): [make_shared] never yields an empty
    pointer, whatever the value is. *)
Definition SetJsController (controller : se.Value) (this : ZegoTextureRenderer)
  : ZegoTextureRenderer :=
  set_js_controller_ (Some controller) this.

(** The accessors (lines 19-27). *)
Definition TextureId (this : ZegoTextureRenderer) : Z := texture_id_ this.
Definition Width (this : ZegoTextureRenderer) : Z := width_ this.
Definition Height (this : ZegoTextureRenderer) : Z := height_ this.
Definition Rotation (this : ZegoTextureRenderer) : Z := rotation_ this.
Definition FlipMode (this : ZegoTextureRenderer) : ZegoVideoFlipMode :=
  flip_mode_ this.

(** Lines 39-67 of [UpdateFrameBuffer]: the conditional on [js_controller_].
    [caller] is the thread executing the function; nothing here hands the
    work to another thread (the [RunOnCocosThread] wrapper is commented out
    in the source), so every engine entry is made by [caller].  The
    controller is turned into an object without a test (line 46), the
    property is tested first (lines 47-50).  [AutoHandleScope] only scopes
    the engine's handles and leaves no mark here. *)
Definition notify_controller (caller : ThreadId) (data : Ptr)
    (this : ZegoTextureRenderer) (e : se.ScriptEngine) : Outcome :=
  match js_controller_ this with
  | None => mkOutcome Returned this e []
  | Some controller =>
    let e := se.clearException e in
    let t := [(caller, se.ClearException)] in
    match se.toObject controller with
    | None => mkOutcome AssertionFailed this e t
    | Some obj =>
      let t := t ++ [(caller, se.GetProperty obj "updateRendererFrameBuffer")] in
      match se.getProperty e obj "updateRendererFrameBuffer" with
      | None => mkOutcome Returned this e t
      | Some method =>
        if negb (se.isObject method) then mkOutcome Returned this e t
        else
          match se.toObject method with
          | None => mkOutcome AssertionFailed this e t
          | Some func =>
            if negb (se.isFunction e func) then mkOutcome Returned this e t
            else
              let js_texture_id := nativevalue_to_se_int64 (texture_id_ this) in
              let js_data := nativevalue_to_se_ptr data in
              let args := [js_texture_id; js_data] in
              let '(_, e) := call func args obj e in
              mkOutcome Returned this e (t ++ [(caller, se.Call func args obj)])
          end
      end
    end
  end.

(** [UpdateFrameBuffer] (lines 29-68). *)
Definition UpdateFrameBuffer (caller : ThreadId) (data : Ptr) (data_length : Z)
    (param : ZegoVideoFrameParam) (flip_mode : ZegoVideoFlipMode)
    (this : ZegoTextureRenderer) (e : se.ScriptEngine) : Outcome :=
  let this := set_width_ (to_uint32 (width param)) this in
  let this := set_height_ (to_uint32 (height param)) this in
  let this := set_rotation_ (to_uint32 (rotation param)) this in
  let this := set_flip_mode_ flip_mode this in
  notify_controller caller data this e.

(** ** Sequences of member calls on one renderer *)

(** A call of a member function, with its arguments. *)
Inductive Request : Type :=
| ReqSetJsController (controller : se.Value)
| ReqTextureId
| ReqWidth
| ReqHeight
| ReqRotation
| ReqFlipMode
| ReqUpdateFrameBuffer (data : Ptr) (data_length : Z)
    (param : ZegoVideoFrameParam) (flip_mode : ZegoVideoFlipMode).

(** What a member call hands back. *)
Inductive Reply : Type :=
| Void
| Int (z : Z)
| Flip (f : ZegoVideoFlipMode).

Definition is_update (rq : Request) : bool :=
  match rq with ReqUpdateFrameBuffer _ _ _ _ => true | _ => false end.

(** One member call made by thread [caller]. *)
Definition dispatch (caller : ThreadId) (rq : Request)
    (this : ZegoTextureRenderer) (e : se.ScriptEngine) : Reply * Outcome :=
  match rq with
  | ReqSetJsController controller =>
    (Void, mkOutcome Returned (SetJsController controller this) e [])
  | ReqTextureId => (Int (TextureId this), mkOutcome Returned this e [])
  | ReqWidth => (Int (Width this), mkOutcome Returned this e [])
  | ReqHeight => (Int (Height this), mkOutcome Returned this e [])
  | ReqRotation => (Int (Rotation this), mkOutcome Returned this e [])
  | ReqFlipMode => (Flip (FlipMode this), mkOutcome Returned this e [])
  | ReqUpdateFrameBuffer data data_length param flip_mode =>
    (Void, UpdateFrameBuffer caller data data_length param flip_mode this e)
  end.

(** Member calls one after the other, each running to its end before the
    next starts.  A failed assertion ends the process: the calls after it do
    not happen. *)
Fixpoint run (reqs : list (ThreadId * Request)) (this : ZegoTextureRenderer)
    (e : se.ScriptEngine) : list (ThreadId * Reply) * Outcome :=
  match reqs with
  | [] => ([], mkOutcome Returned this e [])
  | (t, rq) :: rest =>
    let '(reply, o) := dispatch t rq this e in
    match completion o with
    | AssertionFailed => ([], o)
    | Returned =>
      let '(replies, o') := run rest (renderer o) (engine o) in
      ((t, reply) :: replies,
       mkOutcome (completion o') (renderer o') (engine o')
                 (trace o ++ trace o'))
    end
  end.

(** [n] constructions in a row. *)
Fixpoint construct_many (n : nat) (p : Process)
  : list ZegoTextureRenderer * Process :=
  match n with
  | O => ([], p)
  | S n =>
    let '(r, p) := ZegoTextureRenderer_new p in
    let '(rs, p) := construct_many n p in
    (r :: rs, p)
  end.

(** The method the controller object [o] offers under [name], when it has
    one that can be called. *)
Definition callable_method (e : se.ScriptEngine) (o : se.ObjectRef)
    (name : string) : option se.ObjectRef :=
  match se.getProperty e o name with
  | Some (se.Object f) => if se.isFunction e f then Some f else None
  | _ => None
  end.

(** The four geometry members as one tuple. *)
Definition geometry (r : ZegoTextureRenderer)
  : Z * Z * Z * ZegoVideoFlipMode :=
  (width_ r, height_ r, rotation_ r, flip_mode_ r).

Definition frame_geometry (param : ZegoVideoFrameParam)
    (flip_mode : ZegoVideoFlipMode) : Z * Z * Z * ZegoVideoFlipMode :=
  (to_uint32 (width param), to_uint32 (height param),
   to_uint32 (rotation param), flip_mode).

(** The reply to a request that is not a frame delivery, read off a geometry
    tuple and an id. *)
Definition reply_from (g : Z * Z * Z * ZegoVideoFlipMode) (id : Z)
    (rq : Request) : Reply :=
  match rq with
  | ReqTextureId => Int id
  | ReqWidth => Int g.1.1.1
  | ReqHeight => Int g.1.1.2
  | ReqRotation => Int g.1.2
  | ReqFlipMode => Flip g.2
  | _ => Void
  end.

(** The same request with another [data_length]. *)
Definition with_data_length (n : Z) (rq : Request) : Request :=
  match rq with
  | ReqUpdateFrameBuffer data _ param flip_mode =>
    ReqUpdateFrameBuffer data n param flip_mode
  | _ => rq
  end.

Definition failed (c : Completion) : bool :=
  match c with AssertionFailed => true | Returned => false end.

(** The geometry tuples of the frames delivered by a sequence of calls. *)
Definition frames_of (reqs : list (ThreadId * Request))
  : list (Z * Z * Z * ZegoVideoFlipMode) :=
  omap (λ q, match q.2 with
             | ReqUpdateFrameBuffer _ _ param flip_mode =>
               Some (frame_geometry param flip_mode)
             | _ => None
             end) reqs.

(** Every call made into the script engine was made by the thread the
    engine runs on. *)
Definition calls_on_runtime_thread (e : se.ScriptEngine) (t : list Entry)
  : Prop :=
  Forall (λ en, en.1 = se.owner e) (filter (λ en, se.is_call en.2 = true) t).

(** A geometry that is neither the one the renderer had before a frame nor
    the frame's: some members are new, some old. *)
Definition partially_updated (before : ZegoTextureRenderer)
    (param : ZegoVideoFrameParam) (flip_mode : ZegoVideoFlipMode)
    (now : ZegoTextureRenderer) : Prop :=
  geometry now ≠ geometry before
  ∧ geometry now ≠ frame_geometry param flip_mode.

Definition calls_of (t : list Entry) : list Entry :=
  filter (λ en, se.is_call en.2 = true) t.

(** ** Statement by statement: calls from several threads

    The source takes no lock (the [lock_guard] at line 32 is commented out),
    so while one thread is inside [UpdateFrameBuffer] another may call a
    member function between two of its statements.  The machine below runs
    the same statements one at a time, in the order a schedule gives. *)

(** Where a thread stands inside [UpdateFrameBuffer]: before line 34, 35, 36,
    37 or 39. *)
Inductive Pc : Type :=
| AtWidth
| AtHeight
| AtRotation
| AtFlipMode
| AtController.

(** A call of [UpdateFrameBuffer] in progress: its arguments and where it
    stands. *)
Record Activation : Type := mkActivation {
  pc : Pc;
  a_data : Ptr;
  a_data_length : Z;
  a_param : ZegoVideoFrameParam;
  a_flip_mode : ZegoVideoFlipMode
}.

Definition at_pc (k : Pc) (a : Activation) : Activation :=
  mkActivation k (a_data a) (a_data_length a) (a_param a) (a_flip_mode a).

(** One renderer shared by the threads of the process. *)
Record System : Type := mkSystem {
  shared : ZegoTextureRenderer;
  runtime : se.ScriptEngine;
  running : gmap ThreadId Activation;
  replies : list (ThreadId * Reply);
  journal : list Entry;
  halted : bool
}.

(** What a schedule is made of: thread [t] calls a member function, or thread
    [t], which is inside [UpdateFrameBuffer], executes its next statement. *)
Inductive Tick : Type :=
| Invoke (t : ThreadId) (rq : Request)
| Advance (t : ThreadId).

(** The next statement of the call of [UpdateFrameBuffer] thread [t] is
    in. *)
Definition advance (t : ThreadId) (s : System) : System :=
  match running s !! t with
  | None => s
  | Some a =>
    let proceed (this : ZegoTextureRenderer) (k : Pc) :=
      mkSystem this (runtime s) (<[t := at_pc k a]> (running s))
               (replies s) (journal s) false in
    match pc a with
    | AtWidth =>
      proceed (set_width_ (to_uint32 (width (a_param a))) (shared s)) AtHeight
    | AtHeight =>
      proceed (set_height_ (to_uint32 (height (a_param a))) (shared s))
              AtRotation
    | AtRotation =>
      proceed (set_rotation_ (to_uint32 (rotation (a_param a))) (shared s))
              AtFlipMode
    | AtFlipMode =>
      proceed (set_flip_mode_ (a_flip_mode a) (shared s)) AtController
    | AtController =>
      let o := notify_controller t (a_data a) (shared s) (runtime s) in
      match completion o with
      | Returned =>
        mkSystem (renderer o) (engine o) (delete t (running s))
                 (replies s ++ [(t, Void)]) (journal s ++ trace o) false
      | AssertionFailed =>
        mkSystem (renderer o) (engine o) (delete t (running s))
                 (replies s) (journal s ++ trace o) true
      end
    end
  end.

(** One tick.  The accessors and [SetJsController] are a single statement
    each; entering [UpdateFrameBuffer] only records the call, whose
    arguments are passed by value.  The controller branch (lines 39-67) is
    one step.  Once an assertion has failed nothing runs any more. *)
Definition tick (k : Tick) (s : System) : System :=
  if halted s then s
  else
    match k with
    | Advance t => advance t s
    | Invoke t (ReqUpdateFrameBuffer data data_length param flip_mode) =>
      mkSystem (shared s) (runtime s)
               (<[t := mkActivation AtWidth data data_length param flip_mode]>
                  (running s))
               (replies s) (journal s) false
    | Invoke t rq =>
      let '(reply, o) := dispatch t rq (shared s) (runtime s) in
      mkSystem (renderer o) (engine o) (running s)
               (replies s ++ [(t, reply)]) (journal s ++ trace o) false
    end.

Definition schedule (ticks : list Tick) (s : System) : System :=
  foldl (λ s k, tick k s) s ticks.

Definition boot (this : ZegoTextureRenderer) (e : se.ScriptEngine) : System :=
  mkSystem this e ∅ [] [] false.

(** The schedule in which every call runs to its end before the next one
    starts. *)
Definition one_by_one (reqs : list (ThreadId * Request)) : list Tick :=
  reqs ≫= λ '(t, rq),
    if is_update rq then Invoke t rq :: replicate 5 (Advance t)
    else [Invoke t rq].

(** ** Vocabulary for whole sequences of calls *)

Definition is_bind (rq : Request) : bool :=
  match rq with ReqSetJsController _ => true | _ => false end.

(** The buffers handed to [UpdateFrameBuffer] by a sequence of calls, in the
    order of the calls. *)
Definition delivered (reqs : list (ThreadId * Request)) : list Ptr :=
  omap (λ q, match q.2 with
             | ReqUpdateFrameBuffer data _ _ _ => Some data
             | _ => None
             end) reqs.

(** The buffer arguments of the calls made into the script engine, in the
    order of the entries. *)
Definition buffers_of (t : list Entry) : list se.Value :=
  omap (λ en, match en.2 with
              | se.Call _ [_; buffer] _ => Some buffer
              | _ => None
              end) t.

(** The geometry left by the last frame of a sequence, or [init] when the
    sequence delivers none. *)
Definition last_geometry (reqs : list (ThreadId * Request))
    (init : Z * Z * Z * ZegoVideoFlipMode) : Z * Z * Z * ZegoVideoFlipMode :=
  default init (last (frames_of reqs)).

(** An engine entry that concerns the object [o] (clearing the exception
    concerns no object). *)
Definition goes_to (o : se.ObjectRef) (en : Entry) : Prop :=
  match en.2 with
  | se.ClearException => True
  | se.GetProperty o' _ => o' = o
  | se.Call _ _ o' => o' = o
  end.

(** A call entry whose arguments are the id value [id] and one buffer. *)
Definition carries_id (id : se.Value) (en : Entry) : Prop :=
  match en.2 with
  | se.Call _ args _ => ∃ buffer, args = [id; buffer]
  | _ => True
  end.

(** The script function [f] leaves itself in place as the
    [updateRendererFrameBuffer] of [o] when it runs. *)
Definition method_kept (o f : se.ObjectRef) : Prop :=
  ∀ args e,
    callable_method e o "updateRendererFrameBuffer" = Some f →
    callable_method (call f args o (se.clearException e)).2 o
                    "updateRendererFrameBuffer" = Some f.

End Bridge.

(** ** A recording controller

    A platform to run the definitions on: numbers convert to [Number], a
    buffer address to [BigInt], and calling a script function stores its two
    arguments in the properties [streamId] and [buffer] of the object it is
    called on. *)

Definition record_call (func : se.ObjectRef) (args : list se.Value)
    (thisObject : se.ObjectRef) (e : se.ScriptEngine)
  : bool * se.ScriptEngine :=
  match args, se.heap e !! thisObject with
  | [id; buffer], Some obj =>
    let props := <["buffer" := buffer]> (<["streamId" := id]> (se.properties obj)) in
    (true,
     se.mkScriptEngine
       (<[thisObject := se.mkJsObject props (se.callable obj)]> (se.heap e))
       (se.pending_exception e) (se.owner e))
  | _, _ => (false, e)
  end.

Definition recording : Platform := {|
  nativevalue_to_se_int64 := se.Number;
  nativevalue_to_se_ptr := se.BigInt;
  call := record_call;
  width_default := 0;
  height_default := 0;
  rotation_default := 0;
  flip_mode_default := FlipNone
|}.

(** A heap with a controller object (1) whose [updateRendererFrameBuffer]
    is the function object 2, a controller without that property (3), and a
    controller whose property of that name is a number (4). *)
Definition demo_heap : gmap se.ObjectRef se.JsObject :=
  <[1%positive := se.mkJsObject
      {["updateRendererFrameBuffer" := se.Object 2%positive]} false]>
  (<[2%positive := se.mkJsObject ∅ true]>
  (<[3%positive := se.mkJsObject ∅ false]>
  (<[4%positive := se.mkJsObject
      {["updateRendererFrameBuffer" := se.Number 7]} false]> ∅))).

Definition demo_engine : se.ScriptEngine := se.mkScriptEngine demo_heap true 0%nat.

Definition demo_process : Process := mkProcess 0 demo_engine.

Definition demo_renderer : ZegoTextureRenderer :=
  (@ZegoTextureRenderer_new recording demo_process).1.

Definition frame_640 : ZegoVideoFrameParam := mkParam 640 480 90.

(** Two frames from thread 1, a 320 x 240 one at address 4096 and the
    640 x 480 one at address 8192, with a [Width] call from thread 2 in
    between; and the two frames alone. *)
Definition frames_and_read : list (ThreadId * Request) :=
  [(1%nat, ReqUpdateFrameBuffer 4096 4 (mkParam 320 240 0) FlipNone);
   (2%nat, ReqWidth);
   (1%nat, ReqUpdateFrameBuffer 8192 4 frame_640 FlipHorizontal)].

Definition two_frames : list (ThreadId * Request) :=
  [(1%nat, ReqUpdateFrameBuffer 4096 4 (mkParam 320 240 0) FlipNone);
   (1%nat, ReqUpdateFrameBuffer 8192 4 frame_640 FlipHorizontal)].


(** Thread 1 enters [UpdateFrameBuffer] with the 640 x 480 frame and
    executes its first statement; then thread 2 calls [Width] and
    [Height]. *)
Definition reader_in_between : list Tick :=
  [Invoke 1%nat (ReqUpdateFrameBuffer 4096 4 frame_640 FlipHorizontal);
   Advance 1%nat; Invoke 2%nat ReqWidth; Invoke 2%nat ReqHeight].

(** * Properties *)

Section BridgeFacts.

Context `{Platform}.

Implicit Types (this : ZegoTextureRenderer) (e : se.ScriptEngine).
Implicit Types (param : ZegoVideoFrameParam) (flip_mode : ZegoVideoFlipMode).
Implicit Types (caller : ThreadId) (data data_length : Z).

(** ** The engine's queries ignore the exception flag *)

Lemma getProperty_clearException e o name :
  se.getProperty (se.clearException e) o name = se.getProperty e o name.
Proof. reflexivity. Qed.

Lemma isFunction_clearException e o :
  se.isFunction (se.clearException e) o = se.isFunction e o.
Proof. reflexivity. Qed.

(** [callable_method] is [None] exactly in the cases the source returns
    early: no such property, a property that is not an object, an object
    that is not a function. *)
Lemma callable_method_None e o name :
  callable_method e o name = None ↔
    se.getProperty e o name = None
    ∨ (∃ v, se.getProperty e o name = Some v ∧ se.isObject v = false)
    ∨ (∃ f, se.getProperty e o name = Some (se.Object f)
            ∧ se.isFunction e f = false).
Proof.
  unfold callable_method.
  destruct (se.getProperty e o name) as [v|] eqn:Hget.
  - destruct v; simpl;
      try (split; [intros _; right; left; eexists; split; [reflexivity|reflexivity]
                  | reflexivity]).
    destruct (se.isFunction e o0) eqn:Hfun; split.
    + discriminate.
    + intros [?|[(v & Hv & Hobj)|(f & Hf & Hnot)]]; try discriminate.
      * injection Hv as <-. discriminate.
      * injection Hf as <-. congruence.
    + intros _. right; right. eexists; split; [reflexivity|assumption].
    + reflexivity.
  - split; [intros _; left; reflexivity | reflexivity].
Qed.

(** ** What [notify_controller] and [UpdateFrameBuffer] leave alone *)

Lemma notify_controller_renderer caller data this e :
  renderer (notify_controller caller data this e) = this.
Proof.
  unfold notify_controller.
  repeat (case_match; simpl; try reflexivity).
Qed.

Lemma UpdateFrameBuffer_renderer caller data data_length param flip_mode this e :
  renderer (UpdateFrameBuffer caller data data_length param flip_mode this e)
  = mkRenderer (texture_id_ this) (js_controller_ this)
      (to_uint32 (width param)) (to_uint32 (height param))
      (to_uint32 (rotation param)) flip_mode.
Proof. unfold UpdateFrameBuffer. rewrite notify_controller_renderer. reflexivity. Qed.

Lemma UpdateFrameBuffer_geometry caller data data_length param flip_mode this e :
  geometry (renderer
    (UpdateFrameBuffer caller data data_length param flip_mode this e))
  = frame_geometry param flip_mode.
Proof. rewrite UpdateFrameBuffer_renderer. reflexivity. Qed.

Lemma dispatch_texture_id caller rq this e :
  texture_id_ (renderer (dispatch caller rq this e).2) = texture_id_ this.
Proof.
  destruct rq; simpl; try reflexivity.
  rewrite UpdateFrameBuffer_renderer. reflexivity.
Qed.

Lemma dispatch_stays_bound caller rq this e :
  is_Some (js_controller_ this) →
  is_Some (js_controller_ (renderer (dispatch caller rq this e).2)).
Proof.
  intros Hb. destruct rq; simpl; try assumption.
  - eexists; reflexivity.
  - rewrite UpdateFrameBuffer_renderer. assumption.
Qed.

Lemma dispatch_quiet_geometry caller rq this e :
  is_update rq = false →
  geometry (renderer (dispatch caller rq this e).2) = geometry this.
Proof. destruct rq; simpl; intros; try reflexivity; discriminate. Qed.

Lemma dispatch_quiet_returns caller rq this e :
  is_update rq = false → completion (dispatch caller rq this e).2 = Returned.
Proof. destruct rq; simpl; intros; try reflexivity; discriminate. Qed.

(** ** Sequences of calls *)

Lemma run_cons t rq rest this e :
  run ((t, rq) :: rest) this e =
  let ro := dispatch t rq this e in
  match completion ro.2 with
  | AssertionFailed => ([], ro.2)
  | Returned =>
    let later := run rest (renderer ro.2) (engine ro.2) in
    ((t, ro.1) :: later.1,
     mkOutcome (completion later.2) (renderer later.2) (engine later.2)
               (trace ro.2 ++ trace later.2))
  end.
Proof.
  simpl. destruct (dispatch t rq this e) as [reply o]; simpl.
  destruct (completion o); [|reflexivity].
  destruct (run rest (renderer o) (engine o)); reflexivity.
Qed.

Lemma run_texture_id reqs this e :
  texture_id_ (renderer (run reqs this e).2) = texture_id_ this.
Proof.
  revert this e. induction reqs as [|[t rq] rest IH]; intros this e.
  - reflexivity.
  - rewrite run_cons. cbv zeta.
    destruct (completion _) eqn:Hc; simpl.
    + rewrite IH. apply dispatch_texture_id.
    + apply dispatch_texture_id.
Qed.

Lemma run_stays_bound reqs this e :
  is_Some (js_controller_ this) →
  is_Some (js_controller_ (renderer (run reqs this e).2)).
Proof.
  revert this e. induction reqs as [|[t rq] rest IH]; intros this e Hb.
  - assumption.
  - rewrite run_cons. cbv zeta.
    destruct (completion _) eqn:Hc; simpl.
    + apply IH, dispatch_stays_bound, Hb.
    + apply dispatch_stays_bound, Hb.
Qed.

Lemma dispatch_quiet_reply caller rq this e :
  is_update rq = false →
  (dispatch caller rq this e).1
  = reply_from (geometry this) (texture_id_ this) rq.
Proof. destruct rq; simpl; intros; try reflexivity. Qed.

Lemma run_quiet reqs this e :
  Forall (λ q, is_update q.2 = false) reqs →
  let later := run reqs this e in
  geometry (renderer later.2) = geometry this
  ∧ completion later.2 = Returned
  ∧ later.1
    = map (λ q, (q.1, reply_from (geometry this) (texture_id_ this) q.2)) reqs.
Proof.
  intros Hq. revert this e.
  induction Hq as [|[t rq] rest Hrq _ IH]; intros this e.
  - repeat split.
  - simpl in Hrq. cbv zeta. rewrite run_cons. cbv zeta.
    rewrite (dispatch_quiet_returns t rq this e Hrq).
    destruct (IH (renderer (dispatch t rq this e).2)
                 (engine (dispatch t rq this e).2)) as (Hg & Hc & Hr).
    simpl. rewrite Hg, Hc, Hr.
    rewrite (dispatch_quiet_geometry t rq this e Hrq).
    rewrite (dispatch_quiet_reply t rq this e Hrq).
    rewrite (dispatch_texture_id t rq this e).
    repeat split.
Qed.

(** ** Frame delivery *)

(** C1.  Once a controller object [o] is bound with [SetJsController] and
    offers a callable [updateRendererFrameBuffer] (the function object [f]),
    one [UpdateFrameBuffer] makes exactly one call into the script engine:
    [f], on [o] as receiver, with the two arguments converted from the
    renderer's own texture id and from the very buffer pointer passed in.
    The call is made inside [UpdateFrameBuffer] by the calling thread (the
    engine state returned is the one the callee left), and the [bool] the
    call hands back is dropped: the function returns in either case. *)
Theorem bound_delivery_calls_method_once
    caller data data_length param flip_mode this0 e o f :
  callable_method e o "updateRendererFrameBuffer" = Some f →
  let this := SetJsController (se.Object o) this0 in
  let args :=
    [nativevalue_to_se_int64 (TextureId this); nativevalue_to_se_ptr data] in
  let out := UpdateFrameBuffer caller data data_length param flip_mode this e in
  completion out = Returned
  ∧ calls_of (trace out) = [(caller, se.Call f args o)]
  ∧ trace out = [(caller, se.ClearException);
                 (caller, se.GetProperty o "updateRendererFrameBuffer");
                 (caller, se.Call f args o)]
  ∧ engine out = (call f args o (se.clearException e)).2
  ∧ TextureId (renderer out) = TextureId this0.
Proof.
  intros Hm. unfold callable_method in Hm.
  cbv zeta. unfold UpdateFrameBuffer, notify_controller. simpl.
  rewrite getProperty_clearException.
  destruct (se.getProperty e o "updateRendererFrameBuffer") as [[| | | | |g|]|];
    try discriminate Hm.
  simpl. rewrite isFunction_clearException.
  destruct (se.isFunction e g); [|discriminate Hm].
  injection Hm as ->. simpl.
  destruct (call _ _ _ _) as [ok e']. simpl.
  repeat split.
Qed.

(** C2.  After [UpdateFrameBuffer] with width 640, height 480, rotation 90
    and the horizontal flip mode, every later [Width], [Height], [Rotation]
    and [FlipMode] call answers 640, 480, 90 and horizontal, as long as no
    other [UpdateFrameBuffer] comes in between; this holds for any renderer,
    with or without a controller, and whatever the delivery did on the
    script side. *)
Theorem accessors_after_update caller data data_length this e reqs :
  Forall (λ q, is_update q.2 = false) reqs →
  let out :=
    UpdateFrameBuffer caller data data_length (mkParam 640 480 90)
                      FlipHorizontal this e in
  let later := run reqs (renderer out) (engine out) in
  (Width (renderer out) = 640 ∧ Height (renderer out) = 480
   ∧ Rotation (renderer out) = 90 ∧ FlipMode (renderer out) = FlipHorizontal)
  ∧ (Width (renderer later.2) = 640 ∧ Height (renderer later.2) = 480
     ∧ Rotation (renderer later.2) = 90
     ∧ FlipMode (renderer later.2) = FlipHorizontal)
  ∧ ∀ i t,
      (reqs !! i = Some (t, ReqWidth) → later.1 !! i = Some (t, Int 640))
      ∧ (reqs !! i = Some (t, ReqHeight) → later.1 !! i = Some (t, Int 480))
      ∧ (reqs !! i = Some (t, ReqRotation) → later.1 !! i = Some (t, Int 90))
      ∧ (reqs !! i = Some (t, ReqFlipMode)
         → later.1 !! i = Some (t, Flip FlipHorizontal)).
Proof.
  intros Hq. cbv zeta.
  set (out := UpdateFrameBuffer _ _ _ _ _ _ _).
  destruct (run_quiet reqs (renderer out) (engine out) Hq) as (Hg & _ & Hr).
  assert (Hout : geometry (renderer out) = (640, 480, 90, FlipHorizontal)).
  { unfold out. rewrite UpdateFrameBuffer_geometry. reflexivity. }
  rewrite Hout in Hg, Hr.
  unfold geometry in Hout, Hg.
  injection Hout as Hw Hh Hd Hf. injection Hg as Hw' Hh' Hd' Hf'.
  split; [repeat split; assumption|].
  split; [repeat split; assumption|].
  intros i t. rewrite Hr, list_lookup_fmap.
  repeat split; intros ->; reflexivity.
Qed.

(** C4.  With no controller bound, [UpdateFrameBuffer] asks nothing of the
    script engine and leaves it as it was, fails no assertion, stores the
    frame's geometry and returns. *)
Theorem unbound_delivery_is_silent
    caller data data_length param flip_mode this e :
  js_controller_ this = None →
  let out := UpdateFrameBuffer caller data data_length param flip_mode this e in
  completion out = Returned
  ∧ trace out = []
  ∧ engine out = e
  ∧ geometry (renderer out) = frame_geometry param flip_mode.
Proof.
  intros Hn. cbv zeta. unfold UpdateFrameBuffer, notify_controller. simpl.
  rewrite Hn. repeat split.
Qed.

(** C5.  When the bound controller object has no property
    [updateRendererFrameBuffer], or has one that cannot be called,
    [UpdateFrameBuffer] returns without failing and without calling into the
    script side, and the geometry is that of the new frame. *)
Theorem missing_method_skips_call
    caller data data_length param flip_mode this e o :
  js_controller_ this = Some (se.Object o) →
  callable_method e o "updateRendererFrameBuffer" = None →
  let out := UpdateFrameBuffer caller data data_length param flip_mode this e in
  completion out = Returned
  ∧ calls_of (trace out) = []
  ∧ geometry (renderer out) = frame_geometry param flip_mode.
Proof.
  intros Hc Hm. cbv zeta. split; [|split]; [| |apply UpdateFrameBuffer_geometry].
  all: unfold callable_method in Hm;
    unfold UpdateFrameBuffer, notify_controller; simpl; rewrite Hc; simpl;
    rewrite getProperty_clearException;
    destruct (se.getProperty e o "updateRendererFrameBuffer")
      as [[| | | | |g|]|]; try reflexivity;
    simpl; rewrite isFunction_clearException;
    destruct (se.isFunction e g); [discriminate Hm|reflexivity].
Qed.

Lemma dispatch_with_data_length caller n rq this e :
  dispatch caller (with_data_length n rq) this e = dispatch caller rq this e.
Proof. destruct rq; reflexivity. Qed.

(** C8.  The [data_length] argument plays no part: two calls that differ
    only in it end the same way, with the same renderer, the same engine
    state and the same entries, arguments included; and in a whole sequence
    of member calls the lengths can be replaced at will ([g] gives the new
    length for each position) without any change to the replies, the final
    renderer, the engine or the entries. *)
Theorem data_length_is_ignored
    caller data data_length1 data_length2 param flip_mode this e
    (reqs : list (ThreadId * Request)) (g : nat → Z) :
  UpdateFrameBuffer caller data data_length1 param flip_mode this e
  = UpdateFrameBuffer caller data data_length2 param flip_mode this e
  ∧ run (imap (λ i q, (q.1, with_data_length (g i) q.2)) reqs) this e
    = run reqs this e.
Proof.
  split; [reflexivity|].
  revert g this e. induction reqs as [|[t rq] rest IH]; intros g this e.
  - reflexivity.
  - rewrite imap_cons. cbn [fst snd]. rewrite !run_cons. cbv zeta.
    rewrite dispatch_with_data_length.
    destruct (completion _); [|reflexivity].
    rewrite (IH (g ∘ S)). reflexivity.
Qed.

(** ** Binding *)

(** C9.  [SetJsController] stores a non-empty pointer whatever the value,
    no member call empties it again, and so after any sequence of member
    calls a further [UpdateFrameBuffer] enters the controller branch: its
    first act is [clearException]. *)
Theorem bound_stays_bound
    controller this0 e reqs caller data data_length param flip_mode :
  let this := SetJsController controller this0 in
  let later := (run reqs this e).2 in
  js_controller_ this = Some controller
  ∧ is_Some (js_controller_ (renderer later))
  ∧ ∃ rest,
      trace (UpdateFrameBuffer caller data data_length param flip_mode
                               (renderer later) (engine later))
      = (caller, se.ClearException) :: rest.
Proof.
  cbv zeta. split; [reflexivity|].
  assert (Hb : is_Some (js_controller_
            (renderer (run reqs (SetJsController controller this0) e).2))).
  { apply run_stays_bound. eexists; reflexivity. }
  split; [exact Hb|].
  destruct Hb as [c Hc].
  unfold UpdateFrameBuffer, notify_controller. simpl. rewrite Hc.
  repeat (case_match; simpl; try (eexists; reflexivity)).
Qed.

(** C10.  [SetJsController] changes the controller only: the texture id and
    the four geometry members are what they were. *)
Theorem SetJsController_keeps_id_and_geometry controller this :
  TextureId (SetJsController controller this) = TextureId this
  ∧ Width (SetJsController controller this) = Width this
  ∧ Height (SetJsController controller this) = Height this
  ∧ Rotation (SetJsController controller this) = Rotation this
  ∧ FlipMode (SetJsController controller this) = FlipMode this.
Proof. repeat split. Qed.

(** ** Statement by statement *)

Lemma schedule_app ticks1 ticks2 (s : System) :
  schedule (ticks1 ++ ticks2) s = schedule ticks2 (schedule ticks1 s).
Proof. apply foldl_app. Qed.

Lemma schedule_halted ticks (s : System) :
  halted s = true → schedule ticks s = s.
Proof.
  revert s. induction ticks as [|k ticks IH]; intros s Hh; [reflexivity|].
  change (schedule ticks (tick k s) = s).
  assert (Hk : tick k s = s) by (unfold tick; rewrite Hh; reflexivity).
  rewrite Hk. apply IH, Hh.
Qed.

(** One statement of a call in progress, read off its program point. *)
Lemma tick_advance t k d l p f this e (m : gmap ThreadId Activation) rs js :
  tick (Advance t)
       (mkSystem this e (<[t := mkActivation k d l p f]> m) rs js false)
  = match k with
    | AtWidth =>
      mkSystem (set_width_ (to_uint32 (width p)) this) e
               (<[t := mkActivation AtHeight d l p f]> m) rs js false
    | AtHeight =>
      mkSystem (set_height_ (to_uint32 (height p)) this) e
               (<[t := mkActivation AtRotation d l p f]> m) rs js false
    | AtRotation =>
      mkSystem (set_rotation_ (to_uint32 (rotation p)) this) e
               (<[t := mkActivation AtFlipMode d l p f]> m) rs js false
    | AtFlipMode =>
      mkSystem (set_flip_mode_ f this) e
               (<[t := mkActivation AtController d l p f]> m) rs js false
    | AtController =>
      let o := notify_controller t d this e in
      mkSystem (renderer o) (engine o) (delete t m)
               (rs ++ if failed (completion o) then [] else [(t, Void)])
               (js ++ trace o) (failed (completion o))
    end.
Proof.
  unfold tick, advance.
  cbn [halted running shared runtime replies journal].
  rewrite lookup_insert_eq.
  destruct k; cbn [pc at_pc a_data a_data_length a_param a_flip_mode];
    rewrite ?insert_insert_eq; try reflexivity.
  rewrite delete_insert_eq. cbv zeta.
  destruct (completion _); cbn [failed]; rewrite ?app_nil_r; reflexivity.
Qed.

(** A call of [UpdateFrameBuffer] that no other tick interrupts does what
    the function does in one piece. *)
Lemma schedule_update_alone t data data_length param flip_mode (s : System) :
  halted s = false → running s = ∅ →
  schedule (Invoke t (ReqUpdateFrameBuffer data data_length param flip_mode)
              :: replicate 5 (Advance t)) s
  = let o := UpdateFrameBuffer t data data_length param flip_mode
               (shared s) (runtime s) in
    mkSystem (renderer o) (engine o) ∅
      (replies s ++ if failed (completion o) then [] else [(t, Void)])
      (journal s ++ trace o) (failed (completion o)).
Proof.
  destruct s as [this e act rs js h]. cbn [halted running]. intros -> ->.
  unfold schedule. cbn [replicate foldl].
  change (tick (Invoke t (ReqUpdateFrameBuffer data data_length param flip_mode))
            (mkSystem this e ∅ rs js false))
    with (mkSystem this e
            (<[t := mkActivation AtWidth data data_length param flip_mode]> ∅)
            rs js false).
  rewrite !tick_advance. cbv zeta.
  rewrite delete_empty. reflexivity.
Qed.

Lemma schedule_quiet_alone t rq (s : System) :
  halted s = false → is_update rq = false →
  schedule [Invoke t rq] s
  = let ro := dispatch t rq (shared s) (runtime s) in
    mkSystem (renderer ro.2) (engine ro.2) (running s)
      (replies s ++ [(t, ro.1)]) (journal s ++ trace ro.2) false.
Proof.
  destruct s as [this e act rs js h]. simpl. intros -> Hq.
  unfold schedule. simpl. unfold tick. simpl.
  destruct rq; try discriminate Hq; reflexivity.
Qed.

(** When every call runs to its end before the next one starts, the machine
    does what [run] does. *)
Lemma schedule_one_by_one reqs (s : System) :
  halted s = false → running s = ∅ →
  schedule (one_by_one reqs) s
  = let later := run reqs (shared s) (runtime s) in
    mkSystem (renderer later.2) (engine later.2) ∅
      (replies s ++ later.1) (journal s ++ trace later.2)
      (failed (completion later.2)).
Proof.
  revert s. induction reqs as [|[t rq] rest IH]; intros s Hh Hr.
  - destruct s; simpl in *; subst. rewrite !app_nil_r. reflexivity.
  - change (one_by_one ((t, rq) :: rest))
      with ((if is_update rq then Invoke t rq :: replicate 5 (Advance t)
             else [Invoke t rq]) ++ one_by_one rest).
    rewrite schedule_app, run_cons. cbv zeta.
    destruct (is_update rq) eqn:Hu.
    + destruct rq; try discriminate Hu.
      rewrite schedule_update_alone by assumption. cbv zeta.
      cbn [dispatch fst snd shared runtime].
      destruct (completion _) eqn:Hc; cbn [failed].
      * rewrite IH by reflexivity.
        cbn [shared runtime replies journal fst snd trace renderer engine
             completion].
        rewrite <- !app_assoc. reflexivity.
      * rewrite schedule_halted by reflexivity.
        cbn [fst snd]. rewrite Hc, app_nil_r. reflexivity.
    + rewrite schedule_quiet_alone by assumption. cbv zeta.
      rewrite (dispatch_quiet_returns t rq _ _ Hu).
      rewrite IH by (cbn [halted running]; first [reflexivity | assumption]).
      cbn [shared runtime replies journal fst snd trace renderer engine
           completion].
      rewrite <- !app_assoc. reflexivity.
Qed.

Lemma dispatch_geometry caller rq this e :
  geometry (renderer (dispatch caller rq this e).2)
  = match rq with
    | ReqUpdateFrameBuffer _ _ param flip_mode => frame_geometry param flip_mode
    | _ => geometry this
    end.
Proof.
  destruct rq; try reflexivity. simpl. apply UpdateFrameBuffer_geometry.
Qed.

(** Between calls the geometry is always one whole tuple: the one the
    renderer started with or that of a delivered frame. *)
Lemma run_geometry_whole reqs this e :
  geometry (renderer (run reqs this e).2) ∈ geometry this :: frames_of reqs.
Proof.
  revert this e. induction reqs as [|[t rq] rest IH]; intros this e.
  - simpl. left.
  - rewrite run_cons. cbv zeta.
    pose proof (dispatch_geometry t rq this e) as Hg.
    destruct (completion _) eqn:Hc; simpl.
    + specialize (IH (renderer (dispatch t rq this e).2)
                     (engine (dispatch t rq this e).2)).
      rewrite Hg in IH. unfold frames_of. simpl.
      destruct rq; simpl; try exact IH.
      right. exact IH.
    + rewrite Hg. unfold frames_of. destruct rq; simpl; try left.
      right; left.
Qed.

(** C7, as the code has it.  The renderer takes no lock.  What keeps a
    reader from a half-written geometry is that calls do not overlap: when
    every member call runs to its end before the next one starts, the
    statement-by-statement machine gives the replies, the renderer and the
    engine entries of the sequential run, and the geometry a reader finds is
    one whole tuple, the initial one or that of a delivered frame. *)
Theorem calls_one_by_one_see_whole_geometry reqs this e :
  let s := schedule (one_by_one reqs) (boot this e) in
  let later := run reqs this e in
  shared s = renderer later.2
  ∧ replies s = later.1
  ∧ journal s = trace later.2
  ∧ geometry (shared s) ∈ geometry this :: frames_of reqs.
Proof.
  cbv zeta.
  rewrite (schedule_one_by_one reqs (boot this e)) by reflexivity.
  simpl. repeat split. apply run_geometry_whole.
Qed.

(** ** Threads *)

Lemma notify_controller_thread caller data this e :
  Forall (λ en : Entry, en.1 = caller)
         (trace (notify_controller caller data this e)).
Proof.
  unfold notify_controller.
  repeat (case_match; simpl; try (repeat constructor)).
Qed.

(** C6, as the code has it.  Everything [UpdateFrameBuffer] asks of the
    script engine, the method call included, is done by the thread that
    called [UpdateFrameBuffer]; nothing is handed over to the engine's own
    thread.  So the calls are on the engine's thread exactly when there is
    none or the caller is that thread. *)
Theorem engine_entries_on_calling_thread
    caller data data_length param flip_mode this e :
  let out := UpdateFrameBuffer caller data data_length param flip_mode this e in
  Forall (λ en : Entry, en.1 = caller) (trace out)
  ∧ (calls_on_runtime_thread e (trace out)
     ↔ calls_of (trace out) = [] ∨ caller = se.owner e).
Proof.
  cbv zeta.
  assert (Ht : Forall (λ en : Entry, en.1 = caller)
    (trace (UpdateFrameBuffer caller data data_length param flip_mode this e)))
    by apply notify_controller_thread.
  split; [exact Ht|].
  assert (Hc : Forall (λ en : Entry, en.1 = caller)
    (calls_of
      (trace (UpdateFrameBuffer caller data data_length param flip_mode this e)))).
  { unfold calls_of. rewrite Forall_forall in Ht |- *.
    intros en Hin. apply Ht. apply list_elem_of_filter in Hin. tauto. }
  unfold calls_on_runtime_thread. fold (calls_of
    (trace (UpdateFrameBuffer caller data data_length param flip_mode this e))).
  destruct (calls_of _) as [|en ens]; split.
  - intros _. left. reflexivity.
  - intros _. constructor.
  - intros Ho. right. inversion Hc; inversion Ho; subst. congruence.
  - intros [Hnil| ->]; [discriminate Hnil|]. exact Hc.
Qed.

(** ** Construction *)

Lemma to_int64_in_range z : INT64_MIN ≤ z ≤ INT64_MAX → to_int64 z = z.
Proof.
  unfold INT64_MIN, INT64_MAX, to_int64. intros Hz.
  rewrite Z.mod_small; lia.
Qed.

Lemma StronglySorted_lt_NoDup (l : list Z) : StronglySorted Z.lt l → NoDup l.
Proof.
  induction 1 as [|x l _ IH Hx]; constructor; [|exact IH].
  intros Hin. rewrite Forall_forall in Hx. specialize (Hx x Hin). lia.
Qed.

Lemma construct_many_spec n p :
  INT64_MIN ≤ sequence p → sequence p + Z.of_nat n ≤ INT64_MAX →
  let built := construct_many n p in
  sequence built.2 = sequence p + Z.of_nat n
  ∧ script_engine built.2 = script_engine p
  ∧ length built.1 = n
  ∧ Forall (λ r, js_controller_ r = None) built.1
  ∧ Forall (λ id, sequence p < id) (map TextureId built.1)
  ∧ StronglySorted Z.lt (map TextureId built.1).
Proof.
  revert p. induction n as [|n IH]; intros p Hlo Hhi.
  - simpl. repeat split; try constructor. lia.
  - cbn [construct_many]. unfold ZegoTextureRenderer_new, GetNextSequence.
    rewrite to_int64_in_range by lia.
    specialize (IH (mkProcess (sequence p + 1) (script_engine p))).
    simpl in IH.
    destruct (construct_many n _) as [rs p'].
    destruct IH as (Hs & He & Hl & Hn & Hgt & Hsorted); [lia|lia|].
    simpl in *. repeat split.
    + lia.
    + exact He.
    + lia.
    + constructor; [reflexivity|exact Hn].
    + constructor; [unfold TextureId; simpl; lia|].
      eapply Forall_impl; [exact Hgt|]. simpl. intros; lia.
    + constructor; [exact Hsorted|exact Hgt].
Qed.

(** C3.  [n] renderers constructed one after the other get texture ids that
    increase strictly in construction order, hence are pairwise different,
    as long as the 64-bit counter does not wrap during the run.  The id is
    given by the constructor from the process-wide counter, no member call
    changes it afterwards, and construction touches nothing but the counter:
    the script engine is left as it was and the new renderer has no
    controller. *)
Theorem construction_ids_increase n p :
  INT64_MIN ≤ sequence p → sequence p + Z.of_nat n ≤ INT64_MAX →
  let built := construct_many n p in
  length built.1 = n
  ∧ StronglySorted Z.lt (map TextureId built.1)
  ∧ NoDup (map TextureId built.1)
  ∧ sequence built.2 = sequence p + Z.of_nat n
  ∧ script_engine built.2 = script_engine p
  ∧ Forall (λ r, js_controller_ r = None) built.1
  ∧ ∀ r reqs e, TextureId (renderer (run reqs r e).2) = TextureId r.
Proof.
  intros Hlo Hhi. cbv zeta.
  destruct (construct_many_spec n p Hlo Hhi) as (Hs & He & Hl & Hn & _ & Hsorted).
  repeat split; try assumption.
  - apply StronglySorted_lt_NoDup, Hsorted.
  - intros r reqs e. apply run_texture_id.
Qed.

End BridgeFacts.

(** * The properties at work on the recording controller *)

(** A renderer bound to the controller object 1, whose method is the
    function object 2: a frame delivered by thread 5 reaches the method
    once, with the renderer's id 1 and the buffer address. *)
Lemma bound_delivery_calls_method_once_witness :
  callable_method demo_engine 1%positive "updateRendererFrameBuffer"
  = Some 2%positive
  ∧ (let out :=
       @UpdateFrameBuffer recording 5%nat 4096 4 frame_640 FlipHorizontal
         (SetJsController (se.Object 1%positive) demo_renderer) demo_engine in
     completion out = Returned
     ∧ calls_of (trace out)
       = [(5%nat, se.Call 2%positive [se.Number 1; se.BigInt 4096] 1%positive)]
     ∧ trace out
       = [(5%nat, se.ClearException);
          (5%nat, se.GetProperty 1%positive "updateRendererFrameBuffer");
          (5%nat, se.Call 2%positive [se.Number 1; se.BigInt 4096] 1%positive)]
     ∧ engine out
       = (record_call 2%positive [se.Number 1; se.BigInt 4096] 1%positive
            (se.clearException demo_engine)).2
     ∧ TextureId (renderer out) = 1).
Proof.
  split.
  - vm_compute. reflexivity.
  - apply (@bound_delivery_calls_method_once recording 5%nat 4096 4 frame_640
             FlipHorizontal demo_renderer demo_engine 1%positive 2%positive).
    vm_compute. reflexivity.
Defined.

(** The accessors after a 640 x 480 frame, with a rebind in between. *)
Lemma accessors_after_update_witness :
  let reqs := [(2%nat, ReqWidth);
               (3%nat, ReqSetJsController (se.Object 1%positive));
               (2%nat, ReqHeight); (2%nat, ReqRotation); (2%nat, ReqFlipMode)] in
  let out :=
    @UpdateFrameBuffer recording 5%nat 4096 4 (mkParam 640 480 90)
      FlipHorizontal demo_renderer demo_engine in
  let later := @run recording reqs (renderer out) (engine out) in
  Forall (λ q, is_update q.2 = false) reqs
  ∧ Width (renderer later.2) = 640
  ∧ Height (renderer later.2) = 480
  ∧ Rotation (renderer later.2) = 90
  ∧ FlipMode (renderer later.2) = FlipHorizontal
  ∧ later.1 = [(2%nat, Int 640); (3%nat, Void); (2%nat, Int 480);
               (2%nat, Int 90); (2%nat, Flip FlipHorizontal)].
Proof.
  cbv zeta.
  assert (Hq : Forall (λ q : ThreadId * Request, is_update q.2 = false)
                 [(2%nat, ReqWidth);
                  (3%nat, ReqSetJsController (se.Object 1%positive));
                  (2%nat, ReqHeight); (2%nat, ReqRotation);
                  (2%nat, ReqFlipMode)])
    by (repeat constructor).
  split; [exact Hq|].
  destruct (@accessors_after_update recording 5%nat 4096 4 demo_renderer
              demo_engine _ Hq) as (_ & (Hw & Hh & Hd & Hf) & _).
  repeat split; try assumption.
Defined.

(** Three constructions from a counter at 0 give the ids 1, 2, 3. *)
Lemma construction_ids_increase_witness :
  INT64_MIN ≤ sequence demo_process
  ∧ sequence demo_process + Z.of_nat 3 ≤ INT64_MAX
  ∧ StronglySorted Z.lt
      (map TextureId (@construct_many recording 3 demo_process).1)
  ∧ map TextureId (@construct_many recording 3 demo_process).1 = [1; 2; 3].
Proof.
  split; [vm_compute; discriminate|].
  split; [vm_compute; discriminate|].
  split; [|reflexivity].
  apply (@construction_ids_increase recording 3 demo_process);
    vm_compute; discriminate.
Defined.

(** A frame for a renderer that has no controller. *)
Lemma unbound_delivery_is_silent_witness :
  js_controller_ demo_renderer = None
  ∧ (let out :=
       @UpdateFrameBuffer recording 5%nat 4096 4 (mkParam 320 240 0) FlipNone
         demo_renderer demo_engine in
     completion out = Returned ∧ trace out = [] ∧ engine out = demo_engine
     ∧ geometry (renderer out) = (320, 240, 0, FlipNone)).
Proof.
  split; [reflexivity|].
  apply (@unbound_delivery_is_silent recording 5%nat 4096 4 (mkParam 320 240 0)
           FlipNone demo_renderer demo_engine).
  reflexivity.
Defined.

(** A frame for a renderer bound to object 4, whose
    [updateRendererFrameBuffer] is a number. *)
Lemma missing_method_skips_call_witness :
  js_controller_ (SetJsController (se.Object 4%positive) demo_renderer)
  = Some (se.Object 4%positive)
  ∧ callable_method demo_engine 4%positive "updateRendererFrameBuffer" = None
  ∧ (let out :=
       @UpdateFrameBuffer recording 5%nat 4096 4 frame_640 FlipHorizontal
         (SetJsController (se.Object 4%positive) demo_renderer) demo_engine in
     completion out = Returned ∧ calls_of (trace out) = []
     ∧ geometry (renderer out) = (640, 480, 90, FlipHorizontal)).
Proof.
  split; [reflexivity|]. split; [vm_compute; reflexivity|].
  apply (@missing_method_skips_call recording 5%nat 4096 4 frame_640
           FlipHorizontal _ demo_engine 4%positive).
  - reflexivity.
  - vm_compute. reflexivity.
Defined.

(** The scenario of the spec, end to end: a fresh renderer takes a frame
    with no controller bound, then is bound to the recording controller and
    takes a second frame, which the controller records once, with the
    renderer's id. *)
Example end_to_end_scenario :
  let b := demo_renderer in
  let o1 :=
    @UpdateFrameBuffer recording 5%nat 4096 4 (mkParam 320 240 0) FlipNone
      b demo_engine in
  let b' := SetJsController (se.Object 1%positive) (renderer o1) in
  let o2 :=
    @UpdateFrameBuffer recording 5%nat 8192 4 (mkParam 320 240 0) FlipNone
      b' (engine o1) in
  completion o1 = Returned ∧ trace o1 = []
  ∧ geometry (renderer o1) = (320, 240, 0, FlipNone)
  ∧ completion o2 = Returned
  ∧ calls_of (trace o2)
    = [(5%nat, se.Call 2%positive [se.Number (TextureId b); se.BigInt 8192]
                 1%positive)]
  ∧ se.getProperty (engine o2) 1%positive "streamId"
    = Some (se.Number (TextureId b))
  ∧ se.getProperty (engine o2) 1%positive "buffer" = Some (se.BigInt 8192).
Proof. vm_compute. repeat split. Qed.

(** A controller that is not an object stops the delivery at the engine's
    assertion, after the geometry has been stored. *)
Example null_controller_fails_assertion :
  let out :=
    @UpdateFrameBuffer recording 5%nat 4096 4 frame_640 FlipHorizontal
      (SetJsController se.Null demo_renderer) demo_engine in
  completion out = AssertionFailed
  ∧ trace out = [(5%nat, se.ClearException)]
  ∧ geometry (renderer out) = (640, 480, 90, FlipHorizontal).
Proof. vm_compute. repeat split. Qed.

(** C6 as the spec words it fails: thread 5 delivers a frame while the
    engine runs on thread 0, and the method is called on thread 5. *)
Lemma call_made_off_runtime_thread :
  se.owner demo_engine = 0%nat
  ∧ ¬ calls_on_runtime_thread demo_engine
        (trace (@UpdateFrameBuffer recording 5%nat 4096 4 frame_640
                  FlipHorizontal
                  (SetJsController (se.Object 1%positive) demo_renderer)
                  demo_engine)).
Proof.
  split; [reflexivity|].
  unfold calls_on_runtime_thread. vm_compute. intros Hall.
  inversion Hall as [|en ens Hthread _]. discriminate Hthread.
Qed.

(** C7 as the spec words it fails: thread 1 is after the first store of
    [UpdateFrameBuffer] when thread 2 calls [Width] and [Height]; it gets the
    new width 640 with the old height 0. *)
Lemma reader_sees_new_width_with_old_height :
  geometry demo_renderer = (0, 0, 0, FlipNone)
  ∧ replies (@schedule recording reader_in_between
               (boot demo_renderer demo_engine))
    = [(2%nat, Int 640); (2%nat, Int 0)]
  ∧ partially_updated demo_renderer frame_640 FlipHorizontal
      (shared (@schedule recording reader_in_between
                 (boot demo_renderer demo_engine))).
Proof.
  split; [reflexivity|].
  split; [vm_compute; reflexivity|].
  split; vm_compute; discriminate.
Qed.

(** * Further properties of the member functions *)

Section BridgeMore.

Context `{Platform}.

Implicit Types (this : ZegoTextureRenderer) (e : se.ScriptEngine).
Implicit Types (param : ZegoVideoFrameParam) (flip_mode : ZegoVideoFlipMode).
Implicit Types (caller : ThreadId) (data data_length : Z).
Implicit Types (reqs : list (ThreadId * Request)).

(** The four ways through lines 39-67. *)
Lemma notify_controller_cases caller data this e :
  (js_controller_ this = None
   ∧ notify_controller caller data this e = mkOutcome Returned this e [])
  ∨ (∃ v, js_controller_ this = Some v ∧ se.isObject v = false
       ∧ notify_controller caller data this e
         = mkOutcome AssertionFailed this (se.clearException e)
                     [(caller, se.ClearException)])
  ∨ (∃ o, js_controller_ this = Some (se.Object o)
       ∧ callable_method e o "updateRendererFrameBuffer" = None
       ∧ notify_controller caller data this e
         = mkOutcome Returned this (se.clearException e)
             [(caller, se.ClearException);
              (caller, se.GetProperty o "updateRendererFrameBuffer")])
  ∨ (∃ o f, js_controller_ this = Some (se.Object o)
       ∧ callable_method e o "updateRendererFrameBuffer" = Some f
       ∧ let args := [nativevalue_to_se_int64 (texture_id_ this);
                      nativevalue_to_se_ptr data] in
         notify_controller caller data this e
         = mkOutcome Returned this (call f args o (se.clearException e)).2
             [(caller, se.ClearException);
              (caller, se.GetProperty o "updateRendererFrameBuffer");
              (caller, se.Call f args o)]).
Proof.
  unfold notify_controller, callable_method.
  destruct (js_controller_ this) as [v|]; [|left; split; reflexivity].
  right.
  destruct v as [| | | | |o|];
    try (left; eexists; repeat split; reflexivity).
  right. cbn [se.toObject].
  change (se.getProperty (se.clearException e) o "updateRendererFrameBuffer")
    with (se.getProperty e o "updateRendererFrameBuffer").
  destruct (se.getProperty e o "updateRendererFrameBuffer") as [m|] eqn:Hget;
    [|left; exists o; rewrite Hget; repeat split; reflexivity].
  destruct m as [| | | | |g|];
    try (left; exists o; rewrite Hget; repeat split; reflexivity).
  cbn [se.isObject se.toObject negb].
  change (se.isFunction (se.clearException e) g) with (se.isFunction e g).
  destruct (se.isFunction e g) eqn:Hfun; cbn [negb].
  - right. exists o, g. rewrite Hget, Hfun.
    split; [reflexivity|]. split; [reflexivity|].
    cbv zeta. destruct (call _ _ _ _) as [ok e']. reflexivity.
  - left. exists o. rewrite Hget, Hfun. repeat split; reflexivity.
Qed.

Lemma UpdateFrameBuffer_unfold caller data data_length param flip_mode this e :
  UpdateFrameBuffer caller data data_length param flip_mode this e
  = notify_controller caller data
      (mkRenderer (texture_id_ this) (js_controller_ this)
         (to_uint32 (width param)) (to_uint32 (height param))
         (to_uint32 (rotation param)) flip_mode) e.
Proof. reflexivity. Qed.

(** ** One delivery, every way it can go *)

(** X1.  [UpdateFrameBuffer] ends at the engine's assertion exactly when a
    controller is bound whose value is not an object (line 46 turns the
    controller into an object without asking [isObject]); the value found
    under [updateRendererFrameBuffer] never causes this, because lines 47-49
    ask first.  In every other case the function returns. *)
Theorem delivery_fails_iff_controller_not_object
    caller data data_length param flip_mode this e :
  completion (UpdateFrameBuffer caller data data_length param flip_mode this e)
  = AssertionFailed
  ↔ ∃ v, js_controller_ this = Some v ∧ se.isObject v = false.
Proof.
  rewrite UpdateFrameBuffer_unfold.
  destruct (notify_controller_cases caller data
              (mkRenderer (texture_id_ this) (js_controller_ this)
                 (to_uint32 (width param)) (to_uint32 (height param))
                 (to_uint32 (rotation param)) flip_mode) e)
    as [(Hc & ->)|[(v & Hc & Hv & ->)|[(o & Hc & Hm & ->)|(o & f & Hc & Hm & Ho)]]];
    cbn [js_controller_ completion] in *.
  - split; [discriminate|]. intros (v & Hv & _). congruence.
  - split; [|reflexivity]. intros _. exists v. split; assumption.
  - split; [discriminate|]. intros (v & Hv & Hno).
    rewrite Hc in Hv. injection Hv as <-. discriminate Hno.
  - cbv zeta in Ho. rewrite Ho. cbn [completion].
    split; [discriminate|]. intros (v & Hv & Hno).
    rewrite Hc in Hv. injection Hv as <-. discriminate Hno.
Qed.


(** X3.  One [UpdateFrameBuffer] never makes more than one call into the
    script side, and it makes one exactly when the bound controller is an
    object whose [updateRendererFrameBuffer] is a function. *)
Theorem delivery_calls_iff_method_callable
    caller data data_length param flip_mode this e :
  let out := UpdateFrameBuffer caller data data_length param flip_mode this e in
  (length (calls_of (trace out)) ≤ 1)%nat
  ∧ (calls_of (trace out) ≠ []
     ↔ ∃ o f, js_controller_ this = Some (se.Object o)
              ∧ callable_method e o "updateRendererFrameBuffer" = Some f).
Proof.
  cbv zeta. rewrite UpdateFrameBuffer_unfold.
  destruct (notify_controller_cases caller data
              (mkRenderer (texture_id_ this) (js_controller_ this)
                 (to_uint32 (width param)) (to_uint32 (height param))
                 (to_uint32 (rotation param)) flip_mode) e)
    as [(Hc & ->)|[(v & Hc & Hv & ->)|[(o & Hc & Hm & ->)|(o & f & Hc & Hm & Ho)]]];
    cbn [js_controller_ trace] in *.
  - split; [compute; lia|]. split; [intros Hne; exfalso; apply Hne; reflexivity|].
    intros (o & f & Hb & _). congruence.
  - split; [compute; lia|]. split; [intros Hne; exfalso; apply Hne; reflexivity|].
    intros (o & f & Hb & _). rewrite Hc in Hb. injection Hb as ->.
    discriminate Hv.
  - split; [compute; lia|]. split; [intros Hne; exfalso; apply Hne; reflexivity|].
    intros (o' & f & Hb & Hf). rewrite Hc in Hb. injection Hb as <-.
    congruence.
  - cbv zeta in Ho. rewrite Ho. cbn [trace].
    split; [compute; lia|]. split; [|intros _; discriminate].
    intros _. exists o, f. split; assumption.
Qed.

(** ** Whole sequences of member calls *)

Lemma dispatch_quiet_outcome caller rq this e :
  is_update rq = false →
  engine (dispatch caller rq this e).2 = e
  ∧ trace (dispatch caller rq this e).2 = []
  ∧ completion (dispatch caller rq this e).2 = Returned.
Proof. destruct rq; cbn; intros; try discriminate; repeat split. Qed.

Lemma dispatch_keeps_controller caller rq this e :
  is_bind rq = false →
  js_controller_ (renderer (dispatch caller rq this e).2) = js_controller_ this.
Proof.
  destruct rq; cbn [is_bind dispatch snd renderer]; intros Hb;
    try discriminate Hb; try reflexivity.
  rewrite UpdateFrameBuffer_unfold, notify_controller_renderer. reflexivity.
Qed.

Lemma default_last_cons {A} (a b : A) (l : list A) :
  default a (last (b :: l)) = default b (last l).
Proof.
  revert a b. induction l as [|y l IH]; intros a b; [reflexivity|].
  change (last (b :: y :: l)) with (last (y :: l)).
  rewrite (IH a y), (IH b y). reflexivity.
Qed.

Lemma last_geometry_cons t rq reqs init :
  last_geometry ((t, rq) :: reqs) init
  = last_geometry reqs
      match rq with
      | ReqUpdateFrameBuffer _ _ param flip_mode =>
        frame_geometry param flip_mode
      | _ => init
      end.
Proof.
  unfold last_geometry, frames_of. destruct rq; try reflexivity.
  cbn [omap list_omap snd]. apply default_last_cons.
Qed.

(** X4.  Last write wins: when a sequence of member calls runs through, the
    geometry the accessors then report is that of the last frame delivered,
    whatever came before it, and the initial one when no frame was
    delivered. *)
Theorem last_frame_wins reqs this e :
  completion (run reqs this e).2 = Returned →
  geometry (renderer (run reqs this e).2) = last_geometry reqs (geometry this).
Proof.
  revert this e. induction reqs as [|[t rq] rest IH]; intros this e.
  - reflexivity.
  - rewrite run_cons, last_geometry_cons. cbv zeta.
    rewrite <- dispatch_geometry with (caller := t) (e := e).
    destruct (completion (dispatch t rq this e).2) eqn:Hc.
    + cbn [snd completion renderer]. apply IH.
    + cbn [snd]. rewrite Hc. discriminate.
Qed.


Lemma dispatch_unbound caller rq this e :
  js_controller_ this = None → is_bind rq = false →
  engine (dispatch caller rq this e).2 = e
  ∧ trace (dispatch caller rq this e).2 = []
  ∧ completion (dispatch caller rq this e).2 = Returned.
Proof.
  intros Hn Hb. destruct rq; try discriminate Hb; try (repeat split; fail).
  cbn [dispatch snd]. rewrite UpdateFrameBuffer_unfold.
  unfold notify_controller. cbn [js_controller_]. rewrite Hn. repeat split.
Qed.

(** X6.  Frames that arrive before a controller is bound are dropped, not
    kept for later: on a renderer without controller any number of
    deliveries and accessor calls runs through without a single engine
    entry, leaves the engine as it was and the renderer unbound; only the
    geometry moves on, to that of the last frame. *)
Theorem frames_before_binding_are_dropped reqs this e :
  js_controller_ this = None →
  Forall (λ q, is_bind q.2 = false) reqs →
  completion (run reqs this e).2 = Returned
  ∧ trace (run reqs this e).2 = []
  ∧ engine (run reqs this e).2 = e
  ∧ js_controller_ (renderer (run reqs this e).2) = None
  ∧ geometry (renderer (run reqs this e).2)
    = last_geometry reqs (geometry this).
Proof.
  intros Hn Hq. revert this e Hn.
  induction Hq as [|[t rq] rest Hrq _ IH]; intros this e Hn.
  - repeat split. exact Hn.
  - cbn [snd] in Hrq. rewrite run_cons, last_geometry_cons. cbv zeta.
    destruct (dispatch_unbound t rq this e Hn Hrq) as (He & Ht & Hc).
    rewrite Hc. cbn [fst snd completion engine trace renderer].
    assert (Hn' : js_controller_ (renderer (dispatch t rq this e).2) = None)
      by (rewrite dispatch_keeps_controller; assumption).
    destruct (IH (renderer (dispatch t rq this e).2)
                 (engine (dispatch t rq this e).2) Hn')
      as (Hc' & Ht' & He' & Hn'' & Hg').
    rewrite Hc', Ht', He', Hn'', Hg', Ht, He, dispatch_geometry.
    repeat split.
Qed.

Lemma dispatch_carries_id caller rq this e :
  Forall (carries_id (nativevalue_to_se_int64 (texture_id_ this)))
         (trace (dispatch caller rq this e).2).
Proof.
  destruct rq; try (cbn; constructor; fail).
  cbn [dispatch snd]. rewrite UpdateFrameBuffer_unfold.
  destruct (notify_controller_cases caller data
              (mkRenderer (texture_id_ this) (js_controller_ this)
                 (to_uint32 (width param)) (to_uint32 (height param))
                 (to_uint32 (rotation param)) flip_mode) e)
    as [(Hc & ->)|[(v & Hc & Hv & ->)|[(o & Hc & Hm & ->)|(o & f & Hc & Hm & Ho)]]];
    cbn [trace].
  - constructor.
  - repeat constructor.
  - repeat constructor.
  - cbv zeta in Ho. rewrite Ho. cbn [trace texture_id_].
    repeat constructor. unfold carries_id. cbn [snd]. eexists. reflexivity.
Qed.

(** X7.  Every call a renderer ever makes into the script side has exactly
    two arguments, and the first is the conversion of that renderer's own
    texture id, whatever was bound, rebound or delivered in between. *)
Theorem every_call_carries_own_id reqs this e :
  Forall (carries_id (nativevalue_to_se_int64 (texture_id_ this)))
         (trace (run reqs this e).2).
Proof.
  revert this e. induction reqs as [|[t rq] rest IH]; intros this e.
  - constructor.
  - rewrite run_cons. cbv zeta.
    pose proof (dispatch_carries_id t rq this e) as Hd.
    destruct (completion (dispatch t rq this e).2); cbn [snd trace].
    + apply Forall_app. split; [exact Hd|].
      rewrite <- (dispatch_texture_id t rq this e). apply IH.
    + exact Hd.
Qed.

Lemma dispatch_goes_to caller rq this e o :
  js_controller_ this = Some (se.Object o) →
  Forall (goes_to o) (trace (dispatch caller rq this e).2).
Proof.
  intros Hb. destruct rq; try (cbn; constructor; fail).
  cbn [dispatch snd]. rewrite UpdateFrameBuffer_unfold.
  destruct (notify_controller_cases caller data
              (mkRenderer (texture_id_ this) (js_controller_ this)
                 (to_uint32 (width param)) (to_uint32 (height param))
                 (to_uint32 (rotation param)) flip_mode) e)
    as [(Hc & ->)|[(v & Hc & Hv & ->)|[(o' & Hc & Hm & ->)|(o' & f & Hc & Hm & Ho)]]];
    cbn [trace js_controller_] in *.
  - constructor.
  - repeat constructor.
  - rewrite Hb in Hc. injection Hc as <-. repeat constructor.
  - rewrite Hb in Hc. injection Hc as <-. cbv zeta in Ho. rewrite Ho.
    cbn [trace]. repeat constructor.
Qed.

(** X8.  As long as no other controller is bound, everything a renderer
    asks of the script engine concerns the controller object it is bound
    to: the property is looked up on it and the method is called on it as
    receiver, in every delivery of the sequence. *)
Theorem traffic_goes_to_bound_controller reqs this e o :
  js_controller_ this = Some (se.Object o) →
  Forall (λ q, is_bind q.2 = false) reqs →
  Forall (goes_to o) (trace (run reqs this e).2).
Proof.
  intros Hb Hq. revert this e Hb.
  induction Hq as [|[t rq] rest Hrq _ IH]; intros this e Hb.
  - constructor.
  - cbn [snd] in Hrq. rewrite run_cons. cbv zeta.
    pose proof (dispatch_goes_to t rq this e o Hb) as Hd.
    destruct (completion (dispatch t rq this e).2); cbn [snd trace].
    + apply Forall_app. split; [exact Hd|]. apply IH.
      rewrite dispatch_keeps_controller; assumption.
    + exact Hd.
Qed.

Lemma buffers_of_app (t1 t2 : list Entry) :
  buffers_of (t1 ++ t2) = buffers_of t1 ++ buffers_of t2.
Proof. unfold buffers_of. apply omap_app. Qed.

Lemma calls_of_app (t1 t2 : list Entry) :
  calls_of (t1 ++ t2) = calls_of t1 ++ calls_of t2.
Proof. unfold calls_of. apply filter_app. Qed.

Lemma UpdateFrameBuffer_buffers caller data data_length param flip_mode this e :
  let out := UpdateFrameBuffer caller data data_length param flip_mode this e in
  buffers_of (trace out) = []
  ∨ (completion out = Returned
     ∧ buffers_of (trace out) = [nativevalue_to_se_ptr data]).
Proof.
  cbv zeta. rewrite UpdateFrameBuffer_unfold.
  destruct (notify_controller_cases caller data
              (mkRenderer (texture_id_ this) (js_controller_ this)
                 (to_uint32 (width param)) (to_uint32 (height param))
                 (to_uint32 (rotation param)) flip_mode) e)
    as [(Hc & ->)|[(v & Hc & Hv & ->)|[(o & Hc & Hm & ->)|(o & f & Hc & Hm & Ho)]]];
    cbn [trace].
  - left. reflexivity.
  - left. reflexivity.
  - left. reflexivity.
  - right. cbv zeta in Ho. rewrite Ho. split; reflexivity.
Qed.

(** X9.  Frames are never reordered, repeated or made up on the way to the
    script side: the buffers passed to the controller by a sequence of
    member calls are, in the same order, buffers that were delivered, each
    delivery used at most once. *)
Theorem buffers_reach_script_in_delivery_order reqs this e :
  buffers_of (trace (run reqs this e).2)
  `sublist_of` map nativevalue_to_se_ptr (delivered reqs).
Proof.
  revert this e. induction reqs as [|[t rq] rest IH]; intros this e.
  - constructor.
  - rewrite run_cons. cbv zeta.
    destruct (is_update rq) eqn:Hu.
    + destruct rq; try discriminate Hu.
      cbn [dispatch fst snd]. unfold delivered. cbn [omap list_omap snd].
      fold (delivered rest). cbn [map].
      destruct (UpdateFrameBuffer_buffers t data data_length param flip_mode
                  this e) as [Hnone|[Hc Hone]].
      * destruct (completion _); cbn [trace snd].
        -- rewrite buffers_of_app, Hnone. cbn [app].
           apply sublist_cons, IH.
        -- rewrite Hnone. apply sublist_nil_l.
      * rewrite Hc. cbn [trace snd]. rewrite buffers_of_app, Hone.
        cbn [app]. apply sublist_skip, IH.
    + destruct (dispatch_quiet_outcome t rq this e Hu) as (_ & Ht & Hc).
      rewrite Hc. cbn [trace snd]. rewrite Ht. cbn [app].
      replace (delivered ((t, rq) :: rest)) with (delivered rest)
        by (destruct rq; try discriminate Hu; reflexivity).
      apply IH.
Qed.

Lemma UpdateFrameBuffer_callable caller data data_length param flip_mode
    this e o f :
  js_controller_ this = Some (se.Object o) →
  callable_method e o "updateRendererFrameBuffer" = Some f →
  let args := [nativevalue_to_se_int64 (texture_id_ this);
               nativevalue_to_se_ptr data] in
  UpdateFrameBuffer caller data data_length param flip_mode this e
  = mkOutcome Returned
      (mkRenderer (texture_id_ this) (js_controller_ this)
         (to_uint32 (width param)) (to_uint32 (height param))
         (to_uint32 (rotation param)) flip_mode)
      (call f args o (se.clearException e)).2
      [(caller, se.ClearException);
       (caller, se.GetProperty o "updateRendererFrameBuffer");
       (caller, se.Call f args o)].
Proof.
  intros Hb Hm. cbv zeta. rewrite UpdateFrameBuffer_unfold.
  destruct (notify_controller_cases caller data
              (mkRenderer (texture_id_ this) (js_controller_ this)
                 (to_uint32 (width param)) (to_uint32 (height param))
                 (to_uint32 (rotation param)) flip_mode) e)
    as [(Hc & _)|[(v & Hc & Hv & _)|[(o' & Hc & Hm' & _)|(o' & f' & Hc & Hm' & Ho)]]];
    cbn [js_controller_] in Hc; rewrite Hb in Hc.
  - discriminate Hc.
  - injection Hc as <-. discriminate Hv.
  - injection Hc as <-. congruence.
  - injection Hc as <-. assert (f' = f) as -> by congruence.
    exact Ho.
Qed.

(** X10.  When the controller's method stays in place while it runs, a
    sequence of deliveries to a bound renderer reaches it frame by frame:
    one call per delivery, in delivery order, each with the buffer of its
    own delivery, and the sequence runs through. *)
Theorem every_frame_reaches_kept_method reqs this e o f :
  js_controller_ this = Some (se.Object o) →
  callable_method e o "updateRendererFrameBuffer" = Some f →
  method_kept o f →
  Forall (λ q, is_update q.2 = true) reqs →
  completion (run reqs this e).2 = Returned
  ∧ buffers_of (trace (run reqs this e).2)
    = map nativevalue_to_se_ptr (delivered reqs)
  ∧ length (calls_of (trace (run reqs this e).2)) = length reqs.
Proof.
  intros Hb Hm Hkept Hq. revert this e Hb Hm.
  induction Hq as [|[t rq] rest Hrq _ IH]; intros this e Hb Hm.
  - repeat split.
  - cbn [snd] in Hrq. destruct rq; try discriminate Hrq.
    rewrite run_cons. cbv zeta. cbn [dispatch fst snd].
    rewrite (UpdateFrameBuffer_callable t data data_length param flip_mode
               this e o f Hb Hm).
    cbv zeta. cbn [fst snd completion renderer engine trace].
    destruct (IH (mkRenderer (texture_id_ this) (js_controller_ this)
                    (to_uint32 (width param)) (to_uint32 (height param))
                    (to_uint32 (rotation param)) flip_mode)
                 (call f [nativevalue_to_se_int64 (texture_id_ this);
                          nativevalue_to_se_ptr data] o
                       (se.clearException e)).2)
      as (Hc' & Hb' & Hl').
    { exact Hb. }
    { apply Hkept, Hm. }
    split; [exact Hc'|]. split.
    + rewrite buffers_of_app, Hb'. reflexivity.
    + rewrite calls_of_app, length_app, Hl'. reflexivity.
Qed.

(** ** Any interleaving *)



End BridgeMore.

(** * The further properties at work on the recording controller *)

(** The recording function stores its arguments under two other property
    names of the controller and leaves the method where it is. *)
Lemma record_call_keeps_method : @method_kept recording 1%positive 2%positive.
Proof.
  intros args e Hm. cbn [call recording]. unfold record_call.
  destruct args as [|id [|buffer [|x xs]]]; try exact Hm.
  change (se.heap (se.clearException e)) with (se.heap e).
  destruct (se.heap e !! 1%positive) as [obj|] eqn:Hobj; [|exact Hm].
  cbn [snd]. unfold callable_method, se.getProperty, se.isFunction in *.
  cbn [se.heap] in *. rewrite Hobj in Hm.
  rewrite lookup_insert_eq. cbn [mbind option_bind se.properties] in *.
  rewrite lookup_insert_ne by done. rewrite lookup_insert_ne by done.
  destruct (se.properties obj !! "updateRendererFrameBuffer")
    as [[| | | | |g|]|]; try discriminate Hm.
  destruct (match se.heap e !! g with
            | Some obj0 => se.callable obj0
            | None => false
            end) eqn:Hg; [|discriminate Hm].
  injection Hm as ->.
  rewrite lookup_insert_ne by done. rewrite Hg. reflexivity.
Qed.


Lemma last_frame_wins_witness :
  completion (@run recording frames_and_read demo_renderer demo_engine).2
  = Returned
  ∧ geometry (renderer
      (@run recording frames_and_read demo_renderer demo_engine).2)
    = (640, 480, 90, FlipHorizontal).
Proof.
  assert (Hc : completion
      (@run recording frames_and_read demo_renderer demo_engine).2 = Returned)
    by (vm_compute; reflexivity).
  split; [exact Hc|].
  exact (@last_frame_wins recording frames_and_read demo_renderer demo_engine
           Hc).
Defined.


Lemma frames_before_binding_are_dropped_witness :
  js_controller_ demo_renderer = None
  ∧ Forall (λ q, is_bind q.2 = false) frames_and_read
  ∧ trace (@run recording frames_and_read demo_renderer demo_engine).2 = []
  ∧ engine (@run recording frames_and_read demo_renderer demo_engine).2
    = demo_engine.
Proof.
  assert (Hq : Forall (λ q : ThreadId * Request, is_bind q.2 = false)
                 frames_and_read)
    by (repeat constructor).
  split; [reflexivity|]. split; [exact Hq|].
  destruct (@frames_before_binding_are_dropped recording frames_and_read
              demo_renderer demo_engine eq_refl Hq) as (_ & Ht & He & _).
  split; assumption.
Defined.

Lemma traffic_goes_to_bound_controller_witness :
  js_controller_ (SetJsController (se.Object 1%positive) demo_renderer)
  = Some (se.Object 1%positive)
  ∧ Forall (λ q, is_bind q.2 = false) frames_and_read
  ∧ Forall (goes_to 1%positive)
      (trace (@run recording frames_and_read
                (SetJsController (se.Object 1%positive) demo_renderer)
                demo_engine).2).
Proof.
  assert (Hq : Forall (λ q : ThreadId * Request, is_bind q.2 = false)
                 frames_and_read)
    by (repeat constructor).
  split; [reflexivity|]. split; [exact Hq|].
  exact (@traffic_goes_to_bound_controller recording frames_and_read
           (SetJsController (se.Object 1%positive) demo_renderer)
           demo_engine 1%positive eq_refl Hq).
Defined.

Lemma every_frame_reaches_kept_method_witness :
  callable_method demo_engine 1%positive "updateRendererFrameBuffer"
  = Some 2%positive
  ∧ Forall (λ q, is_update q.2 = true) two_frames
  ∧ buffers_of
      (trace (@run recording two_frames
                (SetJsController (se.Object 1%positive) demo_renderer)
                demo_engine).2)
    = [se.BigInt 4096; se.BigInt 8192].
Proof.
  assert (Hm : callable_method demo_engine 1%positive
                 "updateRendererFrameBuffer" = Some 2%positive)
    by (vm_compute; reflexivity).
  assert (Hq : Forall (λ q : ThreadId * Request, is_update q.2 = true)
                 two_frames)
    by (repeat constructor).
  split; [exact Hm|]. split; [exact Hq|].
  destruct (@every_frame_reaches_kept_method recording two_frames
              (SetJsController (se.Object 1%positive) demo_renderer)
              demo_engine 1%positive 2%positive eq_refl Hm
              record_call_keeps_method Hq) as (_ & Hb & _).
  exact Hb.
Defined.

